(** * URL configuration of the feedback application

  A shallow embedding of the two URL resolvers of the repository:

  - the server-side resolver ([getFrontendUrl], [getBackendUrl],
    [getCorsOrigins]), which reads [process.env];
  - the client-side resolver of [frontend/src/config/urlConfig.ts]
    ([getApiBaseUrl], [getBackendBaseUrl], [getApiUrl], [getSseUrl]),
    which reads [import.meta.env] and [window.location.host].

  The ambient environment is passed explicitly: [process.env] is a finite
  map from variable names to strings, [import.meta.env] a record of the
  fields the code reads.  JavaScript strings are modelled as [string]
  (sequences of 8-bit characters). *)

From Stdlib Require Import Ascii String List Bool Arith Lia DecimalString.
From stdpp Require Import base option gmap strings.

Local Open Scope string_scope.
Local Open Scope list_scope.

(* Let [simpl] compute the concatenation of string literals. *)
#[local] Arguments String.append !s1 s2 : simpl nomatch.

(** ** JavaScript values the code relies on *)

Module JS.

(** Truthiness of a value that is either [undefined] or a string: only a
    non-empty string is truthy. *)
Definition truthy (v : option string) : bool :=
  match v with
  | Some s => negb (s =? "")
  | None => false
  end.

(** [v || d] where [v] is a string or [undefined] and [d] a string. *)
Definition or_else (v : option string) (d : string) : string :=
  match v with
  | Some s => if s =? "" then d else s
  | None => d
  end.

(** [s.startsWith(p)] *)
Definition startsWith (s p : string) : bool := String.prefix p s.

(** [s.includes(p)]: [p] occurs at some position of [s]. *)
Fixpoint includes (s p : string) : bool :=
  String.prefix p s ||
  match s with
  | EmptyString => false
  | String _ s' => includes s' p
  end.

(** [s.endsWith(p)]: some tail of [s] is [p]. *)
Fixpoint endsWith (s p : string) : bool :=
  (s =? p) ||
  match s with
  | EmptyString => false
  | String _ s' => endsWith s' p
  end.

(** The line feed that the source writes as a backslash followed by n. *)
Definition newline : string := String (ascii_of_nat 10) EmptyString.

(** A non-negative integer as a template literal prints it. *)
Definition numberToString (n : nat) : string :=
  NilZero.string_of_uint (Nat.to_uint n).

End JS.

(** ** Regular expression literals

  The regular expressions of the source are sequences of single-character
  atoms, some of them under a greedy quantifier, and the assertions [^] and
  [$].  No literal carries a flag, so [^] holds at index 0 only and [$] at
  the end of the input only. *)

Module RegExp.

Inductive atom : Type :=
| Lit (c : ascii)   (* a literal character, escaped or not *)
| Dot               (* [.]: any character but a line terminator *)
| Digit.            (* [\d] *)

Inductive term : Type :=
| One (a : atom)
| Star (a : atom)   (* [a*], greedy *)
| Plus (a : atom)   (* [a+], greedy *)
| Bol               (* [^] *)
| Eol.              (* [$] *)

Definition t : Type := list term.

#[global] Instance atom_eq_dec : EqDecision atom.
Proof. solve_decision. Defined.
#[global] Instance term_eq_dec : EqDecision term.
Proof. solve_decision. Defined.

(** The literal characters of [s], one term each. *)
Fixpoint lit (s : string) : t :=
  match s with
  | EmptyString => []
  | String c s' => One (Lit c) :: lit s'
  end.

Definition isDigit (c : ascii) : bool :=
  let n := nat_of_ascii c in (48 <=? n)%nat && (n <=? 57)%nat.

Definition isLineTerminator (c : ascii) : bool :=
  let n := nat_of_ascii c in (n =? 10)%nat || (n =? 13)%nat.

Definition atomMatches (a : atom) (c : ascii) : bool :=
  match a with
  | Lit c' => Ascii.eqb c' c
  | Dot => negb (isLineTerminator c)
  | Digit => isDigit c
  end.

(** Greedy iteration of [a], then the rest of the pattern [k]; the longest
    run is tried first and given back one character at a time. *)
Fixpoint greedy (a : atom) (k : bool -> string -> option string)
         (atStart : bool) (s : string) : option string :=
  match s with
  | String c s' =>
      if atomMatches a c
      then match greedy a k false s' with
           | Some r => Some r
           | None => k atStart s
           end
      else k atStart s
  | EmptyString => k atStart s
  end.

(** [matchHere p atStart s]: the backtracking matcher at one position.
    [atStart] tells whether that position is index 0.  The result is the
    input left after the first match found, if there is one. *)
Fixpoint matchHere (p : t) : bool -> string -> option string :=
  match p with
  | [] => fun _ s => Some s
  | tm :: p' =>
      let k := matchHere p' in
      match tm with
      | Bol => fun atStart s => if atStart then k atStart s else None
      | Eol => fun atStart s =>
          match s with
          | EmptyString => k atStart s
          | String _ _ => None
          end
      | One a => fun _ s =>
          match s with
          | String c s' => if atomMatches a c then k false s' else None
          | EmptyString => None
          end
      | Star a => fun atStart s => greedy a k atStart s
      | Plus a => fun _ s =>
          match s with
          | String c s' =>
              if atomMatches a c then greedy a k false s' else None
          | EmptyString => None
          end
      end
  end.

(** The leftmost match: the input before it and the input after it. *)
Fixpoint execFrom (p : t) (atStart : bool) (s : string)
  : option (string * string) :=
  match matchHere p atStart s with
  | Some r => Some (EmptyString, r)
  | None =>
      match s with
      | EmptyString => None
      | String c s' =>
          match execFrom p false s' with
          | Some (pre, post) => Some (String c pre, post)
          | None => None
          end
      end
  end.

Definition exec (p : t) (s : string) : option (string * string) :=
  execFrom p true s.

(** [p.test(s)] *)
Definition test (p : t) (s : string) : bool :=
  match exec p s with Some _ => true | None => false end.

(** [s.replace(p, by)] for a pattern without the global flag and a
    replacement without [$] patterns: the leftmost match is replaced. *)
Definition replace (s : string) (p : t) (by_ : string) : string :=
  match exec p s with
  | Some (pre, post) => pre +:+ by_ +:+ post
  | None => s
  end.

End RegExp.

(** ** The server-side resolver *)

Module Server.

(** [process.env]: every value of it is a string. *)
Abbreviation Env := (gmap string string).

(** An entry of the list of allowed origins: a string or a regular
    expression object. *)
Inductive Origin : Type :=
| OriginStr (s : string)
| OriginRe (r : RegExp.t).

#[global] Instance Origin_eq_dec : EqDecision Origin.
Proof. solve_decision. Defined.

(** [Boolean(o)]: a regular expression object is truthy, a string is
    truthy when it is not empty. *)
Definition originTruthy (o : Origin) : bool :=
  match o with
  | OriginStr s => negb (s =? "")
  | OriginRe _ => true
  end.

Definition nodeEnv (env : Env) : string :=
  JS.or_else (env !! "NODE_ENV") "development".

Definition getFrontendUrl (env : Env) : string :=
  if JS.truthy (env !! "FRONTEND_URL")
  then default "" (env !! "FRONTEND_URL")
  else
    if nodeEnv env =? "production"
    then
      if JS.truthy (env !! "RENDER")
      then
        let serviceName :=
          JS.or_else (env !! "RENDER_SERVICE_NAME")
                     "whatsapp-feedback-fullstack" in
        "https://" +:+ serviceName +:+ ".onrender.com"
      else
        if JS.truthy (env !! "RENDER_EXTERNAL_URL")
        then default "" (env !! "RENDER_EXTERNAL_URL")
        else "https://whatsapp-feedback-fullstack.onrender.com"
    else "http://localhost:5173".

(** The default port is the number [8080]; the template literal prints it
    as ["8080"]. *)
Definition getBackendUrl (env : Env) : string :=
  let port := JS.or_else (env !! "PORT") "8080" in
  let host := JS.or_else (env !! "HOST") "localhost" in
  if nodeEnv env =? "production"
  then
    if JS.truthy (env !! "RENDER_EXTERNAL_URL")
    then default "" (env !! "RENDER_EXTERNAL_URL")
    else
      let serviceName :=
        JS.or_else (env !! "RENDER_SERVICE_NAME")
                   "whatsapp-feedback-fullstack" in
      "https://" +:+ serviceName +:+ ".onrender.com"
  else "http://" +:+ host +:+ ":" +:+ port.

(** [/^http:\/\/localhost:\d+$/] *)
Definition reLocalhostPort : RegExp.t :=
  [RegExp.Bol] ++ RegExp.lit "http://localhost:"
    ++ [RegExp.Plus RegExp.Digit; RegExp.Eol].

(** [/^https:\/\/.*\.SUFFIX$/], with the dots of [SUFFIX] escaped. *)
Definition rePlatform (suffix : string) : RegExp.t :=
  [RegExp.Bol] ++ RegExp.lit "https://" ++ [RegExp.Star RegExp.Dot]
    ++ RegExp.lit "." ++ RegExp.lit suffix ++ [RegExp.Eol].

Definition reOnrender : RegExp.t := rePlatform "onrender.com".
Definition reRailway : RegExp.t := rePlatform "railway.app".
Definition reVercel : RegExp.t := rePlatform "vercel.app".
Definition reNetlify : RegExp.t := rePlatform "netlify.app".

(** The array literal of [getCorsOrigins]. *)
Definition originsLiteral (frontendUrl : string) : list Origin :=
  [ OriginStr frontendUrl;
    OriginStr "http://localhost:5173";
    OriginStr "http://localhost:5174";
    OriginStr "http://localhost:3000";
    OriginStr "http://localhost:5175";
    OriginRe reLocalhostPort;
    OriginRe reOnrender;
    OriginRe reRailway;
    OriginRe reVercel;
    OriginRe reNetlify ].

Definition getCorsOrigins (env : Env) : list Origin :=
  let frontendUrl := getFrontendUrl env in
  let origins := originsLiteral frontendUrl in
  let origins :=
    if nodeEnv env =? "development"
    then origins ++ [OriginStr "*"]
    else origins in
  List.filter originTruthy origins.

(** What [logConfiguration] prints as the number of origins. *)
Definition corsOriginCount (env : Env) : nat :=
  List.length (getCorsOrigins env).

(** The rule that both [logConfiguration] functions print. *)
Definition logRule : string :=
  "━━━━━━━━━━━━━━━━━━━━━━━━━━━━━━━━━━━━━━━━".

(** [logConfiguration]: the arguments of its calls of [console.log], in
    order. *)
Definition logConfiguration (env : Env) : list string :=
  [ JS.newline +:+ "🔧 URL Configuration:";
    logRule;
    "📍 Environment: " +:+ nodeEnv env;
    "🌐 Backend URL: " +:+ getBackendUrl env;
    "🎨 Frontend URL: " +:+ getFrontendUrl env;
    "🔒 CORS Origins: " +:+ JS.numberToString (List.length (getCorsOrigins env))
      +:+ " configured";
    logRule +:+ JS.newline ].

End Server.

(** ** The client-side resolver *)

Module Client.

(** The fields of [import.meta.env] that the code reads.  The two [VITE_]
    variables are strings when they are defined. *)
Record ImportMetaEnv : Type := {
  VITE_API_BASE_URL : option string;
  VITE_BACKEND_PORT : option string;
  PROD : bool;
  DEV : bool;
  MODE : string
}.

(** What a call observes: the build environment and [window.location.host]. *)
Record Browser : Type := {
  env : ImportMetaEnv;
  locationHost : string
}.

Definition getApiBaseUrl (b : Browser) : string :=
  if JS.truthy (VITE_API_BASE_URL (env b))
  then default "" (VITE_API_BASE_URL (env b))
  else
    if PROD (env b)
    then
      let currentHost := locationHost b in
      if JS.includes currentHost "onrender.com"
      then "https://" +:+ currentHost +:+ "/api"
      else if JS.includes currentHost "railway.app"
      then "https://" +:+ currentHost +:+ "/api"
      else if JS.includes currentHost "vercel.app"
      then "https://" +:+ currentHost +:+ "/api"
      else "/api"
    else
      let devBackendPort := JS.or_else (VITE_BACKEND_PORT (env b)) "8080" in
      "http://localhost:" +:+ devBackendPort +:+ "/api".

(** [/\/api$/] *)
Definition reApiSuffix : RegExp.t := RegExp.lit "/api" ++ [RegExp.Eol].

Definition getBackendBaseUrl (b : Browser) : string :=
  let apiUrl := getApiBaseUrl b in
  RegExp.replace apiUrl reApiSuffix "".

Definition getApiUrl (b : Browser) (endpoint : string) : string :=
  let baseUrl := getApiBaseUrl b in
  let cleanEndpoint :=
    if JS.startsWith endpoint "/" then endpoint else "/" +:+ endpoint in
  baseUrl +:+ cleanEndpoint.

Definition getSseUrl (b : Browser) : string := getApiUrl b "/events".

Definition isDevelopment (b : Browser) : bool := DEV (env b).

Definition isProduction (b : Browser) : bool := PROD (env b).

(** [logConfiguration]: the arguments of its calls of [console.log], in
    order; there is none outside development. *)
Definition logConfiguration (b : Browser) : list string :=
  if isDevelopment b
  then
    [ JS.newline +:+ "🔧 Frontend URL Configuration:";
      Server.logRule;
      "📍 Environment: " +:+ MODE (env b);
      "🌐 API Base URL: " +:+ getApiBaseUrl b;
      "🔌 Backend Base URL: " +:+ getBackendBaseUrl b;
      "📡 SSE URL: " +:+ getSseUrl b;
      Server.logRule +:+ JS.newline ]
  else [].

End Client.

(** ** Vocabulary of the properties *)

Module Terms.
Import Server Client.

(** The literal characters of a pattern that ends in [$]. *)
Fixpoint literalTail (p : RegExp.t) : option string :=
  match p with
  | [RegExp.Eol] => Some ""
  | RegExp.One (RegExp.Lit c) :: p' =>
      match literalTail p' with
      | Some s => Some (String c s)
      | None => None
      end
  | _ => None
  end.

(** The pattern left once the literal characters of [s] are read off. *)
Fixpoint stripLit (s : string) (p : RegExp.t) : option RegExp.t :=
  match s with
  | EmptyString => Some p
  | String c s' =>
      match p with
      | RegExp.One (RegExp.Lit c') :: p' =>
          if Ascii.eqb c c' then stripLit s' p' else None
      | _ => None
      end
  end.

(** A platform-suffix pattern has the shape [^https:\/\/.*\.SUFFIX$] with
    [SUFFIX] literal; the suffix is returned. *)
Definition platformSuffixOf (p : RegExp.t) : option string :=
  match p with
  | RegExp.Bol :: p1 =>
      match stripLit "https://" p1 with
      | Some (RegExp.Star RegExp.Dot :: RegExp.One (RegExp.Lit ".") :: p2) =>
          literalTail p2
      | _ => None
      end
  | _ => None
  end.

(** The suffixes of the platform-suffix patterns of a list of origins, in
    order. *)
Fixpoint platformSuffixesOf (l : list Origin) : list string :=
  match l with
  | [] => []
  | OriginRe r :: l' =>
      match platformSuffixOf r with
      | Some s => s :: platformSuffixesOf l'
      | None => platformSuffixesOf l'
      end
  | OriginStr _ :: l' => platformSuffixesOf l'
  end.

(** The three hosting-platform suffixes that the client resolver names. *)
Definition clientPlatformSuffixes : list string :=
  ["onrender.com"; "railway.app"; "vercel.app"].

Definition hostEndsWithPlatformSuffix (host : string) : bool :=
  existsb (JS.endsWith host) clientPlatformSuffixes.

Definition hostIncludesPlatformSuffix (host : string) : bool :=
  existsb (JS.includes host) clientPlatformSuffixes.

(** Every character of [s] satisfies [f]. *)
Fixpoint allChars (f : ascii -> bool) (s : string) : bool :=
  match s with
  | EmptyString => true
  | String c s' => f c && allChars f s'
  end.

(** A numeric port: one decimal digit or more. *)
Definition isNumericPort (s : string) : bool :=
  negb (s =? "") && allChars RegExp.isDigit s.

(** No character of [s] is a line terminator. *)
Definition singleLine (s : string) : bool :=
  allChars (fun c => negb (RegExp.isLineTerminator c)) s.

(** The entries of [getCorsOrigins] after the frontend URL, whatever the
    environment. *)
Definition fixedOrigins : list Origin :=
  [ OriginStr "http://localhost:5173";
    OriginStr "http://localhost:5174";
    OriginStr "http://localhost:3000";
    OriginStr "http://localhost:5175";
    OriginRe reLocalhostPort;
    OriginRe reOnrender;
    OriginRe reRailway;
    OriginRe reVercel;
    OriginRe reNetlify ].

End Terms.

(** ** Concrete environments *)

Module Inputs.
Import Server Client.

Definition prodEnv : Env := {[ "NODE_ENV" := "production" ]}.

Definition testEnv : Env := {[ "NODE_ENV" := "test" ]}.

Definition overriddenEnv : Env := {[ "FRONTEND_URL" := "https://app.example.com" ]}.

Definition prodBrowser (host : string) : Browser :=
  {| env := {| VITE_API_BASE_URL := None; VITE_BACKEND_PORT := None;
               PROD := true; DEV := false; MODE := "production" |};
     locationHost := host |}.

Definition devBrowser (port : option string) : Browser :=
  {| env := {| VITE_API_BASE_URL := None; VITE_BACKEND_PORT := port;
               PROD := false; DEV := true; MODE := "development" |};
     locationHost := "localhost:5173" |}.

Definition overrideBrowser (url : string) : Browser :=
  {| env := {| VITE_API_BASE_URL := Some url; VITE_BACKEND_PORT := None;
               PROD := true; DEV := false; MODE := "production" |};
     locationHost := "app.example.org" |}.

Definition renderEnv : Env :=
  {[ "NODE_ENV" := "production"; "RENDER" := "true";
     "RENDER_SERVICE_NAME" := "feedback" ]}.

Definition externalEnv : Env :=
  {[ "NODE_ENV" := "production";
     "RENDER_EXTERNAL_URL" := "https://feedback.onrender.com" ]}.

Definition bindEnv : Env := {[ "HOST" := "0.0.0.0"; "PORT" := "3001" ]}.

End Inputs.

(** ** Sanity checks of the embedding on concrete inputs *)

Module Examples.
Import Server Client Terms Inputs.

Example frontend_default_dev : getFrontendUrl ∅ = "http://localhost:5173".
Proof. reflexivity. Qed.

Example frontend_default_prod :
  getFrontendUrl prodEnv = "https://whatsapp-feedback-fullstack.onrender.com".
Proof. vm_compute. reflexivity. Qed.

Example frontend_render_service :
  getFrontendUrl (<["RENDER" := "true"]> (<["RENDER_SERVICE_NAME" := "foo"]> prodEnv))
  = "https://foo.onrender.com".
Proof. vm_compute. reflexivity. Qed.

Example backend_default_dev : getBackendUrl ∅ = "http://localhost:8080".
Proof. reflexivity. Qed.

Example cors_count_dev : corsOriginCount ∅ = 11%nat.
Proof. reflexivity. Qed.

Example cors_count_prod : corsOriginCount prodEnv = 10%nat.
Proof. vm_compute. reflexivity. Qed.

Example localhost_pattern_accepts :
  RegExp.test reLocalhostPort "http://localhost:4321" = true.
Proof. reflexivity. Qed.

Example localhost_pattern_rejects :
  RegExp.test reLocalhostPort "http://localhost:43x1" = false.
Proof. reflexivity. Qed.

Example onrender_pattern_accepts :
  RegExp.test reOnrender "https://my-app.onrender.com" = true.
Proof. reflexivity. Qed.

Example onrender_pattern_rejects_tail :
  RegExp.test reOnrender "https://my-app.onrender.com.example.org" = false.
Proof. reflexivity. Qed.

Example onrender_pattern_rejects_scheme :
  RegExp.test reOnrender "http://my-app.onrender.com" = false.
Proof. reflexivity. Qed.

Example api_render :
  getApiBaseUrl (prodBrowser "x.onrender.com") = "https://x.onrender.com/api".
Proof. reflexivity. Qed.

Example api_same_origin : getApiBaseUrl (prodBrowser "app.example.org") = "/api".
Proof. reflexivity. Qed.

Example api_dev : getApiBaseUrl (devBrowser None) = "http://localhost:8080/api".
Proof. reflexivity. Qed.

Example sse_dev : getSseUrl (devBrowser (Some "3001")) = "http://localhost:3001/api/events".
Proof. reflexivity. Qed.

Example backend_base_render :
  getBackendBaseUrl (prodBrowser "x.onrender.com") = "https://x.onrender.com".
Proof. reflexivity. Qed.

Example platform_suffix_onrender : platformSuffixOf reOnrender = Some "onrender.com".
Proof. reflexivity. Qed.

Example platform_suffix_localhost : platformSuffixOf reLocalhostPort = None.
Proof. reflexivity. Qed.

End Examples.

(** ** Facts about the JavaScript helpers *)

Module JSFacts.

Lemma eqb_empty_false (c : ascii) (s : string) : (String c s =? "") = false.
Proof. reflexivity. Qed.

Lemma append_empty_r (s : string) : s +:+ "" = s.
Proof. induction s as [|c s IH]; simpl; [reflexivity | f_equal; exact IH]. Qed.

Lemma append_length (s1 s2 : string) :
  String.length (s1 +:+ s2) = (String.length s1 + String.length s2)%nat.
Proof. induction s1 as [|c s1 IH]; simpl; [reflexivity | f_equal; exact IH]. Qed.

Lemma prefix_refl (s : string) : String.prefix s s = true.
Proof.
  induction s as [|c s IH]; simpl; [reflexivity|].
  destruct (ascii_dec c c) as [_|Hne]; [exact IH | now destruct Hne].
Qed.

Lemma truthy_Some (s : string) :
  s <> "" -> JS.truthy (Some s) = true.
Proof.
  intros Hs. simpl. destruct (String.eqb_spec s "") as [He|_]; [now destruct Hs | reflexivity].
Qed.

Lemma truthy_true (v : option string) :
  JS.truthy v = true -> exists s, v = Some s /\ s <> "".
Proof.
  destruct v as [s|]; simpl; [|discriminate].
  destruct (String.eqb_spec s "") as [->|Hne]; [discriminate|].
  intros _. now exists s.
Qed.

Lemma or_else_nonempty (v : option string) (d : string) :
  d <> "" -> JS.or_else v d <> "".
Proof.
  intros Hd. destruct v as [s|]; simpl; [|exact Hd].
  destruct (String.eqb_spec s "") as [_|Hne]; assumption.
Qed.

(** [endsWith] is the suffix relation. *)
Lemma endsWith_spec (s p : string) :
  JS.endsWith s p = true <-> exists pre, s = pre +:+ p.
Proof.
  induction s as [|c s IH]; cbn [JS.endsWith].
  - rewrite orb_false_r, String.eqb_eq. split.
    + intros <-. now exists "".
    + intros [pre H]. destruct pre; simpl in H; [now subst p | discriminate].
  - rewrite orb_true_iff, IH, String.eqb_eq. split.
    + intros [<-|[pre H]].
      * now exists "".
      * exists (String c pre). simpl. now rewrite H.
    + intros [pre H]. destruct pre as [|c' pre]; simpl in H.
      * now left.
      * right. injection H as _ H. now exists pre.
Qed.

(** A suffix of a string occurs in it. *)
Lemma endsWith_includes (s p : string) :
  JS.endsWith s p = true -> JS.includes s p = true.
Proof.
  induction s as [|c s IH]; cbn [JS.endsWith JS.includes]; intros H;
    apply orb_true_iff in H; apply orb_true_iff.
  - destruct H as [H|H]; [|discriminate].
    apply String.eqb_eq in H. subst p. now left.
  - destruct H as [H|H].
    + apply String.eqb_eq in H. subst p. left. apply prefix_refl.
    + right. now apply IH.
Qed.

End JSFacts.

(** ** The server-side resolver: properties *)

Module ServerFacts.
Import Server Terms Inputs JSFacts.

(** The frontend URL is never the empty string, so the final filter of
    [getCorsOrigins] keeps it. *)
Lemma getFrontendUrl_nonempty (env : Env) : getFrontendUrl env <> "".
Proof.
  unfold getFrontendUrl.
  destruct (JS.truthy (env !! "FRONTEND_URL")) eqn:Hf.
  { apply truthy_true in Hf as (s & -> & Hs). exact Hs. }
  destruct (nodeEnv env =? "production"); [|discriminate].
  destruct (JS.truthy (env !! "RENDER")); [discriminate|].
  destruct (JS.truthy (env !! "RENDER_EXTERNAL_URL")) eqn:Hr; [|discriminate].
  apply truthy_true in Hr as (s & -> & Hs). exact Hs.
Qed.

(** The list of origins, with the filter evaluated. *)
Lemma getCorsOrigins_eq (env : Env) :
  getCorsOrigins env =
    OriginStr (getFrontendUrl env) :: fixedOrigins
      ++ (if nodeEnv env =? "development" then [OriginStr "*"] else []).
Proof.
  unfold getCorsOrigins, originsLiteral, fixedOrigins.
  pose proof (getFrontendUrl_nonempty env) as Hne.
  destruct (getFrontendUrl env) as [|c u]; [now destruct Hne|].
  destruct (nodeEnv env =? "development"); reflexivity.
Qed.

(** The development default applies to an unset and to an empty variable. *)
Lemma nodeEnv_development (env : Env) :
  nodeEnv env = "development" <->
  env !! "NODE_ENV" = None \/ env !! "NODE_ENV" = Some ""
  \/ env !! "NODE_ENV" = Some "development".
Proof.
  unfold nodeEnv. destruct (env !! "NODE_ENV") as [s|]; simpl.
  - destruct (String.eqb_spec s "") as [->|Hne].
    + split; [intros _; right; now left | reflexivity].
    + split.
      * intros ->. right. now right.
      * intros [H|[H|H]]; [discriminate | injection H as H; now destruct Hne
                           | now injection H].
  - split; [now left | reflexivity].
Qed.

Lemma nodeEnv_production (env : Env) :
  nodeEnv env = "production" <-> env !! "NODE_ENV" = Some "production".
Proof.
  unfold nodeEnv. destruct (env !! "NODE_ENV") as [s|]; simpl.
  - destruct (String.eqb_spec s "") as [->|Hne].
    + split; discriminate.
    + split; [now intros -> | now intros [= ->]].
  - split; discriminate.
Qed.

(** C2, as stated, fails: in the empty environment the list holds four
    platform-suffix patterns, not three. *)
Lemma getCorsOrigins_three_patterns_fails :
  ~ (OriginStr "http://localhost:5173" ∈ getCorsOrigins ∅
     /\ OriginStr "http://localhost:5174" ∈ getCorsOrigins ∅
     /\ OriginStr "http://localhost:3000" ∈ getCorsOrigins ∅
     /\ OriginStr "http://localhost:5175" ∈ getCorsOrigins ∅
     /\ List.length (platformSuffixesOf (getCorsOrigins ∅)) = 3%nat
     /\ (nodeEnv ∅ = "development" -> OriginStr "*" ∈ getCorsOrigins ∅)
     /\ OriginStr "" ∉ getCorsOrigins ∅).
Proof.
  intros (_ & _ & _ & _ & Hlen & _). vm_compute in Hlen. discriminate Hlen.
Qed.

(** C2, amended: for every environment the list of [getCorsOrigins] holds
    the four fixed localhost origins and exactly four platform-suffix
    patterns (onrender.com, railway.app, vercel.app, netlify.app); in
    development mode it also holds the wildcard ["*"]; and it never holds
    the empty string. *)
Theorem getCorsOrigins_contents (env : Env) :
  OriginStr "http://localhost:5173" ∈ getCorsOrigins env
  /\ OriginStr "http://localhost:5174" ∈ getCorsOrigins env
  /\ OriginStr "http://localhost:3000" ∈ getCorsOrigins env
  /\ OriginStr "http://localhost:5175" ∈ getCorsOrigins env
  /\ platformSuffixesOf (getCorsOrigins env)
     = ["onrender.com"; "railway.app"; "vercel.app"; "netlify.app"]
  /\ (nodeEnv env = "development" -> OriginStr "*" ∈ getCorsOrigins env)
  /\ OriginStr "" ∉ getCorsOrigins env.
Proof.
  rewrite getCorsOrigins_eq. unfold fixedOrigins.
  repeat split.
  - set_solver.
  - set_solver.
  - set_solver.
  - set_solver.
  - destruct (nodeEnv env =? "development"); reflexivity.
  - intros ->. simpl. set_solver.
  - pose proof (getFrontendUrl_nonempty env) as Hne.
    intros Hin. apply list_elem_of_In in Hin. simpl in Hin.
    destruct Hin as [H|Hin]; [injection H as H; now destruct Hne|].
    destruct (nodeEnv env =? "development"); simpl in Hin;
      repeat (destruct Hin as [H|Hin]; [discriminate H|]); exact Hin.
Qed.

Lemma getCorsOrigins_contents_witness :
  nodeEnv ∅ = "development" /\ OriginStr "*" ∈ getCorsOrigins ∅.
Proof.
  split; [reflexivity|].
  apply (getCorsOrigins_contents ∅). reflexivity.
Defined.

(** C3, as stated, fails: with [NODE_ENV=test] the mode is not production,
    yet the last entry of the list is not the wildcard. *)
Lemma getCorsOrigins_wildcard_test_mode_fails :
  testEnv !! "NODE_ENV" <> Some "production"
  /\ last (getCorsOrigins testEnv) <> Some (OriginStr "*").
Proof. split; vm_compute; discriminate. Qed.

(** C3, amended: the wildcard ["*"] is the last entry of the list exactly
    when [NODE_ENV] is unset, empty or equal to ["development"]; for every
    other value the last entry is the pattern of netlify.app. *)
Theorem getCorsOrigins_last (env : Env) :
  (last (getCorsOrigins env) = Some (OriginStr "*") <->
     env !! "NODE_ENV" = None \/ env !! "NODE_ENV" = Some ""
     \/ env !! "NODE_ENV" = Some "development")
  /\ (last (getCorsOrigins env) = Some (OriginStr "*")
      \/ last (getCorsOrigins env) = Some (OriginRe reNetlify)).
Proof.
  rewrite <- nodeEnv_development, getCorsOrigins_eq. unfold fixedOrigins.
  destruct (String.eqb_spec (nodeEnv env) "development") as [He|Hne]; simpl.
  - split; [|now left]. split; [intros _; exact He | reflexivity].
  - split; [|now right]. split; [discriminate | intros He; now destruct Hne].
Qed.

Lemma getCorsOrigins_last_witness :
  last (getCorsOrigins ∅) = Some (OriginStr "*").
Proof.
  apply (proj1 (getCorsOrigins_last ∅)). left. reflexivity.
Defined.

(** C6, as stated, fails: with [NODE_ENV] unset and [FRONTEND_URL] set, the
    override is returned, not the development URL. *)
Lemma getFrontendUrl_dev_override_fails :
  overriddenEnv !! "NODE_ENV" = None
  /\ getFrontendUrl overriddenEnv <> "http://localhost:5173".
Proof. split; [reflexivity | vm_compute; discriminate]. Qed.

(** C6, amended: when [FRONTEND_URL] is unset or empty and [NODE_ENV] is
    unset or holds any value other than ["production"], [getFrontendUrl]
    returns exactly [http://localhost:5173]. *)
Theorem getFrontendUrl_development (env : Env) :
  JS.truthy (env !! "FRONTEND_URL") = false ->
  env !! "NODE_ENV" <> Some "production" ->
  getFrontendUrl env = "http://localhost:5173".
Proof.
  intros Hf Hmode. unfold getFrontendUrl. rewrite Hf.
  destruct (String.eqb_spec (nodeEnv env) "production") as [He|_]; [|reflexivity].
  apply nodeEnv_production in He. now destruct Hmode.
Qed.

Lemma getFrontendUrl_development_witness :
  JS.truthy (testEnv !! "FRONTEND_URL") = false
  /\ testEnv !! "NODE_ENV" <> Some "production"
  /\ getFrontendUrl testEnv = "http://localhost:5173".
Proof.
  split; [reflexivity|]. split; [vm_compute; discriminate|].
  apply (getFrontendUrl_development testEnv); [reflexivity | vm_compute; discriminate].
Defined.

(** C9: two environments that agree on every variable but [FRONTEND_URL]
    give the same [getBackendUrl]. *)
Theorem getBackendUrl_ignores_FRONTEND_URL (env1 env2 : Env) :
  (forall k : string, k <> "FRONTEND_URL" -> env1 !! k = env2 !! k) ->
  getBackendUrl env1 = getBackendUrl env2.
Proof.
  intros Hagree. unfold getBackendUrl, nodeEnv.
  rewrite (Hagree "NODE_ENV"), (Hagree "PORT"), (Hagree "HOST"),
    (Hagree "RENDER_EXTERNAL_URL"), (Hagree "RENDER_SERVICE_NAME");
    [reflexivity | discriminate..].
Qed.

Lemma getBackendUrl_ignores_FRONTEND_URL_witness :
  (forall k : string, k <> "FRONTEND_URL" -> prodEnv !! k
     = (<["FRONTEND_URL" := "https://app.example.com"]> prodEnv) !! k)
  /\ getBackendUrl prodEnv
     = getBackendUrl (<["FRONTEND_URL" := "https://app.example.com"]> prodEnv).
Proof.
  assert (H : forall k : string, k <> "FRONTEND_URL" -> prodEnv !! k
     = (<["FRONTEND_URL" := "https://app.example.com"]> prodEnv) !! k).
  { intros k Hk. symmetry. apply lookup_insert_ne. congruence. }
  split; [exact H|].
  apply (getBackendUrl_ignores_FRONTEND_URL _ _ H).
Defined.

(** In production the frontend URL is the wildcard only if a variable says
    so. *)
Lemma getFrontendUrl_not_wildcard (env : Env) :
  nodeEnv env = "production" ->
  env !! "FRONTEND_URL" <> Some "*" ->
  env !! "RENDER_EXTERNAL_URL" <> Some "*" ->
  getFrontendUrl env <> "*".
Proof.
  intros Hmode Hf Hr. unfold getFrontendUrl. rewrite Hmode. simpl.
  destruct (env !! "FRONTEND_URL") as [f|] eqn:Ef; simpl.
  - destruct (f =? "") eqn:Efe; simpl; [|congruence].
    destruct (JS.truthy (env !! "RENDER")); [discriminate|].
    destruct (env !! "RENDER_EXTERNAL_URL") as [r|]; simpl; [|discriminate].
    destruct (r =? ""); simpl; [discriminate | congruence].
  - destruct (JS.truthy (env !! "RENDER")); [discriminate|].
    destruct (env !! "RENDER_EXTERNAL_URL") as [r|]; simpl; [|discriminate].
    destruct (r =? ""); simpl; [discriminate | congruence].
Qed.

(** C10: in production mode, when neither [FRONTEND_URL] nor
    [RENDER_EXTERNAL_URL] is the string ["*"], the list of [getCorsOrigins]
    does not hold the wildcard ["*"]. *)
Theorem getCorsOrigins_production_no_wildcard (env : Env) :
  env !! "NODE_ENV" = Some "production" ->
  env !! "FRONTEND_URL" <> Some "*" ->
  env !! "RENDER_EXTERNAL_URL" <> Some "*" ->
  OriginStr "*" ∉ getCorsOrigins env.
Proof.
  intros Hmode Hf Hr. apply nodeEnv_production in Hmode.
  pose proof (getFrontendUrl_not_wildcard env Hmode Hf Hr) as Hne.
  rewrite getCorsOrigins_eq, Hmode. unfold fixedOrigins. simpl.
  intros Hin. apply list_elem_of_In in Hin. simpl in Hin.
  destruct Hin as [H|Hin]; [injection H as H; now destruct Hne|].
  repeat (destruct Hin as [H|Hin]; [discriminate H|]). exact Hin.
Qed.

Lemma getCorsOrigins_production_no_wildcard_witness :
  prodEnv !! "NODE_ENV" = Some "production"
  /\ prodEnv !! "FRONTEND_URL" <> Some "*"
  /\ prodEnv !! "RENDER_EXTERNAL_URL" <> Some "*"
  /\ OriginStr "*" ∉ getCorsOrigins prodEnv.
Proof.
  split; [reflexivity|]. split; [vm_compute; discriminate|].
  split; [vm_compute; discriminate|].
  apply (getCorsOrigins_production_no_wildcard prodEnv);
    [reflexivity | vm_compute; discriminate | vm_compute; discriminate].
Defined.

End ServerFacts.

(** ** The client-side resolver: properties *)

Module RegExpFacts.
Import Server Client Terms JSFacts.

(** *** The matcher on literal characters, [^] and a greedy iteration *)

Lemma lit_app (s1 s2 : string) :
  RegExp.lit (s1 +:+ s2) = RegExp.lit s1 ++ RegExp.lit s2.
Proof. induction s1 as [|c s1 IH]; simpl; [reflexivity | now rewrite IH]. Qed.

(** Literal characters match themselves; the position after them is not
    index 0 unless there were none. *)
Lemma matchHere_lit (s : string) (p : RegExp.t) (atStart : bool) (rest : string) :
  RegExp.matchHere (RegExp.lit s ++ p) atStart (s +:+ rest)
  = RegExp.matchHere p (match s with "" => atStart | _ => false end) rest.
Proof.
  revert atStart. induction s as [|c s IH]; intros atStart; [reflexivity|].
  cbn [RegExp.lit app String.append RegExp.matchHere RegExp.atomMatches].
  rewrite Ascii.eqb_refl, IH. now destruct s.
Qed.

(** Literal characters match nothing else. *)
Lemma matchHere_lit_inv (s : string) (p : RegExp.t) (atStart : bool)
      (input r : string) :
  RegExp.matchHere (RegExp.lit s ++ p) atStart input = Some r ->
  exists rest atStart',
    input = s +:+ rest /\ RegExp.matchHere p atStart' rest = Some r.
Proof.
  revert atStart input. induction s as [|c s IH]; intros atStart input H.
  - now exists input, atStart.
  - cbn [RegExp.lit app RegExp.matchHere RegExp.atomMatches] in H.
    destruct input as [|c' input]; [discriminate|].
    destruct (Ascii.eqb_spec c c') as [<-|_]; [|discriminate].
    apply IH in H as (rest & atStart' & -> & H).
    now exists rest, atStart'.
Qed.

(** A pattern that starts with [^] matches at index 0 only. *)
Lemma execFrom_Bol_later (p : RegExp.t) (s : string) :
  RegExp.execFrom (RegExp.Bol :: p) false s = None.
Proof. induction s as [|c s IH]; simpl; [reflexivity | now rewrite IH]. Qed.

Lemma exec_Bol (p : RegExp.t) (s : string) :
  RegExp.exec (RegExp.Bol :: p) s
  = match RegExp.matchHere p true s with
    | Some r => Some ("", r)
    | None => None
    end.
Proof.
  unfold RegExp.exec. destruct s as [|c s]; cbn [RegExp.execFrom RegExp.matchHere].
  - now destruct (RegExp.matchHere p true "").
  - destruct (RegExp.matchHere p true (String c s)); [reflexivity|].
    now rewrite execFrom_Bol_later.
Qed.

(** What a greedy iteration has read satisfies the atom. *)
Lemma greedy_inv (a : RegExp.atom) (k : bool -> string -> option string)
      (atStart : bool) (s r : string) :
  RegExp.greedy a k atStart s = Some r ->
  exists x rest atStart',
    s = x +:+ rest /\ allChars (RegExp.atomMatches a) x = true
    /\ k atStart' rest = Some r.
Proof.
  revert atStart. induction s as [|c s IH]; intros atStart H; simpl in H.
  - now exists "", "", atStart.
  - destruct (RegExp.atomMatches a c) eqn:Hc.
    + destruct (RegExp.greedy a k false s) as [r'|] eqn:Hg.
      * injection H as <-. apply IH in Hg as (x & rest & b' & -> & Hx & Hk).
        exists (String c x), rest, b'. simpl. now rewrite Hc, Hx.
      * now exists "", (String c s), atStart.
    + now exists "", (String c s), atStart.
Qed.

(** A greedy iteration finds every split of the input into a run of the atom
    and an input that the rest of the pattern matches. *)
Lemma greedy_complete (a : RegExp.atom) (k : bool -> string -> option string)
      (x rest : string) :
  (forall b1 b2 s, k b1 s = k b2 s) ->
  allChars (RegExp.atomMatches a) x = true ->
  k false rest <> None ->
  forall atStart, RegExp.greedy a k atStart (x +:+ rest) <> None.
Proof.
  intros Hk Hx Hrest. induction x as [|c x IH]; intros atStart.
  - simpl. destruct rest as [|c rest]; simpl.
    + now rewrite (Hk atStart false).
    + destruct (RegExp.atomMatches a c).
      * destruct (RegExp.greedy a k false rest); [discriminate|].
        now rewrite (Hk atStart false).
      * now rewrite (Hk atStart false).
  - simpl in Hx. apply andb_true_iff in Hx as [Hc Hx].
    simpl. rewrite Hc. specialize (IH Hx false).
    destruct (RegExp.greedy a k false (x +:+ rest)); [discriminate | now destruct IH].
Qed.

(** *** The platform patterns *)

(** The pattern of a platform accepts the origins [https://X.SUFFIX] with
    [X] any run of characters on one line, and nothing else. *)
Lemma rePlatform_test (suffix origin : string) :
  RegExp.test (rePlatform suffix) origin = true <->
  exists x, singleLine x = true
            /\ origin = "https://" +:+ x +:+ "." +:+ suffix.
Proof.
  unfold RegExp.test, rePlatform.
  change ([RegExp.Bol] ++ RegExp.lit "https://" ++ [RegExp.Star RegExp.Dot]
            ++ RegExp.lit "." ++ RegExp.lit suffix ++ [RegExp.Eol])
    with (RegExp.Bol :: RegExp.lit "https://"
            ++ RegExp.Star RegExp.Dot
                 :: RegExp.lit (String "." suffix) ++ [RegExp.Eol]).
  rewrite exec_Bol. split.
  - destruct (RegExp.matchHere _ true origin) as [r|] eqn:Hm; [|discriminate].
    intros _. apply matchHere_lit_inv in Hm as (rest & b1 & -> & Hm).
    cbn [RegExp.matchHere] in Hm.
    apply greedy_inv in Hm as (x & rest' & b2 & -> & Hx & Hm).
    apply matchHere_lit_inv in Hm as (tl & b3 & -> & Hm).
    destruct tl; [|discriminate]. exists x. split; [exact Hx|].
    now rewrite append_empty_r.
  - intros (x & Hx & ->). rewrite matchHere_lit.
    cbn [RegExp.matchHere].
    assert (Hg : RegExp.greedy RegExp.Dot
                   (RegExp.matchHere (RegExp.lit (String "." suffix) ++ [RegExp.Eol]))
                   false (x +:+ "." +:+ suffix) <> None).
    { apply greedy_complete; [reflexivity | exact Hx |].
      rewrite <- (append_empty_r ("." +:+ suffix)).
      change ("." +:+ suffix) with (String "." suffix).
      rewrite matchHere_lit. discriminate. }
    destruct (RegExp.greedy _ _ false _); [reflexivity | now destruct Hg].
Qed.

(** [platformSuffixOf] recognises the platform patterns, and them only. *)
Lemma literalTail_lit (s : string) :
  literalTail (RegExp.lit s ++ [RegExp.Eol]) = Some s.
Proof.
  induction s as [|c s IH]; [reflexivity|].
  cbn [RegExp.lit app literalTail].
  destruct (RegExp.lit s ++ [RegExp.Eol]) eqn:He.
  - destruct s; discriminate.
  - now rewrite IH.
Qed.

Lemma platformSuffixOf_rePlatform (suffix : string) :
  platformSuffixOf (rePlatform suffix) = Some suffix.
Proof. unfold rePlatform. cbn. apply literalTail_lit. Qed.

(** [/\/api$/] matches at a position exactly when the input left there is
    [/api]; the match then reaches the end of the input. *)
Lemma matchHere_reApiSuffix (atStart : bool) (s : string) :
  RegExp.matchHere reApiSuffix atStart s
  = if s =? "/api" then Some "" else None.
Proof.
  unfold reApiSuffix. cbn [RegExp.lit app RegExp.matchHere RegExp.atomMatches].
  destruct s as [|c1 [|c2 [|c3 [|c4 [|c5 s]]]]]; cbn [String.eqb];
    repeat match goal with
    | |- context [Ascii.eqb ?a ?b] =>
        rewrite (Ascii.eqb_sym a b); destruct (Ascii.eqb b a)
    end; reflexivity.
Qed.

Lemma execFrom_reApiSuffix_suffix (atStart : bool) (pre : string) :
  RegExp.execFrom reApiSuffix atStart (pre +:+ "/api") = Some (pre, "").
Proof.
  revert atStart. induction pre as [|c pre IH]; intros atStart.
  - reflexivity.
  - cbn [String.append RegExp.execFrom]. rewrite matchHere_reApiSuffix.
    destruct (String.eqb_spec (String c (pre +:+ "/api")) "/api") as [He|_].
    + apply (f_equal String.length) in He. cbn [String.length] in He.
      rewrite append_length in He. cbn [String.length] in He. lia.
    + now rewrite IH.
Qed.

Lemma execFrom_reApiSuffix_none (atStart : bool) (s : string) :
  (forall pre, s <> pre +:+ "/api") ->
  RegExp.execFrom reApiSuffix atStart s = None.
Proof.
  revert atStart. induction s as [|c s IH]; intros atStart Hno.
  - reflexivity.
  - cbn [RegExp.execFrom]. rewrite matchHere_reApiSuffix.
    destruct (String.eqb_spec (String c s) "/api") as [He|_].
    + now destruct (Hno "").
    + rewrite IH; [reflexivity|].
      intros pre He. apply (Hno (String c pre)). simpl. now rewrite He.
Qed.

End RegExpFacts.

Module ClientFacts.
Import Server Client Terms Inputs JSFacts RegExpFacts.

(** What the production branch computes: the host is searched for the three
    suffixes at any position. *)
Lemma getApiBaseUrl_production (b : Browser) :
  JS.truthy (VITE_API_BASE_URL (env b)) = false ->
  PROD (env b) = true ->
  getApiBaseUrl b =
    if hostIncludesPlatformSuffix (locationHost b)
    then "https://" +:+ locationHost b +:+ "/api"
    else "/api".
Proof.
  intros Ho Hp. unfold getApiBaseUrl, hostIncludesPlatformSuffix.
  rewrite Ho, Hp. cbn [existsb clientPlatformSuffixes].
  destruct (JS.includes (locationHost b) "onrender.com"); [reflexivity|].
  destruct (JS.includes (locationHost b) "railway.app"); [reflexivity|].
  destruct (JS.includes (locationHost b) "vercel.app"); reflexivity.
Qed.

(** X20, the half of C1 that holds: in a production build without override,
    a host that ends with one of the three suffixes gets the absolute URL
    [https://HOST/api]. *)
Lemma getApiBaseUrl_platform_host (b : Browser) :
  JS.truthy (VITE_API_BASE_URL (env b)) = false ->
  PROD (env b) = true ->
  hostEndsWithPlatformSuffix (locationHost b) = true ->
  getApiBaseUrl b = "https://" +:+ locationHost b +:+ "/api".
Proof.
  intros Ho Hp Hends. rewrite (getApiBaseUrl_production b Ho Hp).
  assert (Hinc : hostIncludesPlatformSuffix (locationHost b) = true).
  { unfold hostEndsWithPlatformSuffix in Hends.
    apply existsb_exists in Hends as (suf & Hin & Hsuf).
    apply existsb_exists. exists suf. split; [exact Hin|].
    now apply endsWith_includes. }
  now rewrite Hinc.
Qed.

(** C1: the code at the host [onrender.com.example.org], which ends with
    none of the three suffixes: the absolute URL is returned where the claim
    says [/api]. *)
Theorem getApiBaseUrl_suffix_inside_host :
  JS.truthy (VITE_API_BASE_URL (env (prodBrowser "onrender.com.example.org"))) = false
  /\ PROD (env (prodBrowser "onrender.com.example.org")) = true
  /\ hostEndsWithPlatformSuffix "onrender.com.example.org" = false
  /\ getApiBaseUrl (prodBrowser "onrender.com.example.org")
     = "https://onrender.com.example.org/api"
  /\ getApiBaseUrl (prodBrowser "onrender.com.example.org") <> "/api".
Proof. repeat split. discriminate. Qed.

(** C4, as stated, fails: with the port override [abc] the development URL
    carries [abc], it is not the default. *)
Lemma getApiBaseUrl_malformed_port_fails :
  PROD (env (devBrowser (Some "abc"))) = false
  /\ isNumericPort "abc" = false
  /\ getApiBaseUrl (devBrowser (Some "abc")) <> "http://localhost:8080/api".
Proof. repeat split. discriminate. Qed.

(** C4, amended: in a development build with no API-base override,
    [getApiBaseUrl] returns [http://localhost:P/api] where [P] is the port
    override as it is when that is a non-empty string, numeric or not, and
    [8080] when it is unset or empty. *)
Theorem getApiBaseUrl_development (b : Browser) :
  JS.truthy (VITE_API_BASE_URL (env b)) = false ->
  PROD (env b) = false ->
  (forall P, VITE_BACKEND_PORT (env b) = Some P -> P <> "" ->
     getApiBaseUrl b = "http://localhost:" +:+ P +:+ "/api")
  /\ (VITE_BACKEND_PORT (env b) = None \/ VITE_BACKEND_PORT (env b) = Some "" ->
      getApiBaseUrl b = "http://localhost:8080/api").
Proof.
  intros Ho Hp. unfold getApiBaseUrl. rewrite Ho, Hp. split.
  - intros P -> HP. simpl.
    destruct (String.eqb_spec P "") as [He|_]; [now destruct HP | reflexivity].
  - intros [-> | ->]; reflexivity.
Qed.

Lemma getApiBaseUrl_development_witness :
  JS.truthy (VITE_API_BASE_URL (env (devBrowser (Some "abc")))) = false
  /\ PROD (env (devBrowser (Some "abc"))) = false
  /\ getApiBaseUrl (devBrowser (Some "abc")) = "http://localhost:abc/api".
Proof.
  split; [reflexivity|]. split; [reflexivity|].
  apply (proj1 (getApiBaseUrl_development (devBrowser (Some "abc"))
                  eq_refl eq_refl) "abc"); [reflexivity | discriminate].
Defined.

(** C5: a non-empty [FRONTEND_URL] is what [getFrontendUrl] returns, and a
    non-empty [VITE_API_BASE_URL] is what [getApiBaseUrl] returns, whatever
    the mode and the other variables. *)
Theorem explicit_override_returned :
  (forall (e : Env) (S : string),
      e !! "FRONTEND_URL" = Some S -> S <> "" -> getFrontendUrl e = S)
  /\ (forall (b : Browser) (S : string),
      VITE_API_BASE_URL (env b) = Some S -> S <> "" -> getApiBaseUrl b = S).
Proof.
  split.
  - intros e S He HS. unfold getFrontendUrl.
    rewrite He, (truthy_Some S HS). reflexivity.
  - intros b S Hb HS. unfold getApiBaseUrl.
    rewrite Hb, (truthy_Some S HS). reflexivity.
Qed.

Lemma explicit_override_returned_witness :
  getFrontendUrl (<["FRONTEND_URL" := "https://app.example.com"]> prodEnv)
    = "https://app.example.com"
  /\ getApiBaseUrl (overrideBrowser "https://api.example.com/v1")
    = "https://api.example.com/v1".
Proof.
  split.
  - apply (proj1 explicit_override_returned); [reflexivity | discriminate].
  - apply (proj2 explicit_override_returned); [reflexivity | discriminate].
Defined.

(** C7: [getBackendBaseUrl] removes [/api] from the result of
    [getApiBaseUrl] when, and only when, that result ends with exactly
    [/api]: [https://x.onrender.com/api] becomes [https://x.onrender.com],
    and [https://x.onrender.com/api/legacy], where [/api] is not at the end,
    is returned as it is, as is a result that ends with [/API]. *)
Theorem getBackendBaseUrl_strips_trailing_api (b : Browser) :
  (forall pre, getApiBaseUrl b = pre +:+ "/api" -> getBackendBaseUrl b = pre)
  /\ ((forall pre, getApiBaseUrl b <> pre +:+ "/api") ->
      getBackendBaseUrl b = getApiBaseUrl b)
  /\ (getApiBaseUrl b = "https://x.onrender.com/api" ->
      getBackendBaseUrl b = "https://x.onrender.com")
  /\ (getApiBaseUrl b = "https://x.onrender.com/api/legacy" ->
      getBackendBaseUrl b = "https://x.onrender.com/api/legacy")
  /\ (getApiBaseUrl b = "https://x.onrender.com/API" ->
      getBackendBaseUrl b = "https://x.onrender.com/API").
Proof.
  unfold getBackendBaseUrl, RegExp.replace, RegExp.exec.
  split; [|split].
  - intros pre ->. rewrite execFrom_reApiSuffix_suffix.
    simpl. apply append_empty_r.
  - intros Hno. now rewrite execFrom_reApiSuffix_none.
  - repeat split; intros ->; reflexivity.
Qed.

Lemma getBackendBaseUrl_strips_trailing_api_witness :
  (getApiBaseUrl (prodBrowser "x.onrender.com") = "https://x.onrender.com/api"
   /\ getBackendBaseUrl (prodBrowser "x.onrender.com") = "https://x.onrender.com")
  /\ (getApiBaseUrl (overrideBrowser "https://x.onrender.com/api/legacy")
      = "https://x.onrender.com/api/legacy"
      /\ getBackendBaseUrl (overrideBrowser "https://x.onrender.com/api/legacy")
         = "https://x.onrender.com/api/legacy").
Proof.
  split; (split; [reflexivity|]).
  - apply (proj1 (getBackendBaseUrl_strips_trailing_api
                    (prodBrowser "x.onrender.com")) "https://x.onrender.com").
    reflexivity.
  - apply (proj1 (proj2 (proj2 (proj2 (getBackendBaseUrl_strips_trailing_api
             (overrideBrowser "https://x.onrender.com/api/legacy")))))).
    reflexivity.
Defined.

(** C8: [getApiUrl] of [feedback] and of [/feedback] are both the base URL
    followed by [/feedback]; an endpoint that starts with a slash is appended
    as it is, any other endpoint after one slash, and neither the base URL
    nor the endpoint is changed otherwise. *)
Theorem getApiUrl_join (b : Browser) :
  getApiUrl b "feedback" = getApiBaseUrl b +:+ "/feedback"
  /\ getApiUrl b "/feedback" = getApiBaseUrl b +:+ "/feedback"
  /\ (forall rest, getApiUrl b (String "/" rest)
                   = getApiBaseUrl b +:+ String "/" rest)
  /\ (forall endpoint, JS.startsWith endpoint "/" = false ->
        getApiUrl b endpoint = getApiBaseUrl b +:+ "/" +:+ endpoint)
  /\ getApiUrl b "//feedback/" = getApiBaseUrl b +:+ "//feedback/".
Proof.
  unfold getApiUrl.
  split; [reflexivity|]. split; [reflexivity|].
  split; [intros rest; destruct rest; reflexivity|].
  split; [|reflexivity].
  intros endpoint ->. reflexivity.
Qed.

Lemma getApiUrl_join_witness :
  JS.startsWith "feedback/" "/" = false
  /\ getApiUrl (devBrowser None) "feedback/" = "http://localhost:8080/api/feedback/".
Proof.
  split; [reflexivity|].
  apply (proj1 (proj2 (proj2 (proj2 (getApiUrl_join (devBrowser None)))))).
  reflexivity.
Defined.

End ClientFacts.

(** ** More facts about strings *)

Module StringFacts.
Import JSFacts.

Lemma append_assoc (s1 s2 s3 : string) :
  (s1 +:+ s2) +:+ s3 = s1 +:+ s2 +:+ s3.
Proof. induction s1 as [|c s1 IH]; simpl; [reflexivity | f_equal; exact IH]. Qed.

Lemma prefix_append (p rest : string) : String.prefix p (p +:+ rest) = true.
Proof.
  induction p as [|c p IH]; simpl; [now destruct rest|].
  destruct (ascii_dec c c) as [_|Hne]; [exact IH | now destruct Hne].
Qed.

Lemma append_nonempty_l (s1 s2 : string) : s1 <> "" -> s1 +:+ s2 <> "".
Proof. destruct s1; [intros H; now destruct H | discriminate]. Qed.

Lemma append_eq_empty (s1 s2 : string) : s1 +:+ s2 = "" -> s1 = "" /\ s2 = "".
Proof. destruct s1; simpl; [now intros -> | discriminate]. Qed.

Lemma or_else_falsy (v : option string) (d : string) :
  JS.truthy v = false -> JS.or_else v d = d.
Proof.
  destruct v as [s|]; simpl; [|reflexivity].
  now destruct (s =? "").
Qed.

Lemma or_else_truthy (v : option string) (d : string) :
  JS.truthy v = true -> JS.or_else v d = default "" v.
Proof.
  destruct v as [s|]; simpl; [|discriminate].
  now destruct (s =? "").
Qed.

End StringFacts.

(** ** The origin patterns of the server *)

Module PatternFacts.
Import Server Terms JSFacts StringFacts RegExpFacts.


(** X2: a platform pattern never accepts an origin that does not start with
    [https://] or that does not end with the dot and the platform suffix: the
    suffix inside a longer host, or another scheme, is refused. *)
Theorem platform_pattern_anchored (suffix origin : string) :
  RegExp.test (rePlatform suffix) origin = true ->
  JS.startsWith origin "https://" = true
  /\ JS.endsWith origin ("." +:+ suffix) = true.
Proof.
  intros H. apply rePlatform_test in H as (x & _ & ->). split.
  - apply prefix_append.
  - apply endsWith_spec. exists ("https://" +:+ x).
    now rewrite append_assoc.
Qed.

Lemma platform_pattern_anchored_witness :
  RegExp.test (rePlatform "onrender.com") "https://my-app.onrender.com" = true
  /\ JS.startsWith "https://my-app.onrender.com" "https://" = true
  /\ JS.endsWith "https://my-app.onrender.com" ("." +:+ "onrender.com") = true.
Proof.
  split; [reflexivity|].
  apply (platform_pattern_anchored "onrender.com" "https://my-app.onrender.com").
  reflexivity.
Defined.

(** X3: the localhost pattern accepts an origin exactly when it is
    [http://localhost:] followed by one decimal digit or more and nothing
    else. *)
Theorem reLocalhostPort_test (origin : string) :
  RegExp.test reLocalhostPort origin = true <->
  exists port, isNumericPort port = true
               /\ origin = "http://localhost:" +:+ port.
Proof.
  unfold RegExp.test, reLocalhostPort, isNumericPort.
  change ([RegExp.Bol] ++ RegExp.lit "http://localhost:"
            ++ [RegExp.Plus RegExp.Digit; RegExp.Eol])
    with (RegExp.Bol :: RegExp.lit "http://localhost:"
            ++ [RegExp.Plus RegExp.Digit; RegExp.Eol]).
  rewrite exec_Bol. split.
  - destruct (RegExp.matchHere _ true origin) as [r|] eqn:Hm; [|discriminate].
    intros _. apply matchHere_lit_inv in Hm as (rest & b1 & -> & Hm).
    cbn [RegExp.matchHere RegExp.atomMatches] in Hm.
    destruct rest as [|c rest]; [discriminate|].
    destruct (RegExp.isDigit c) eqn:Hc; [|discriminate].
    apply greedy_inv in Hm as (x & tl & b2 & -> & Hx & Hm).
    destruct tl; [|discriminate]. exists (String c x). split.
    + cbn [String.eqb negb andb allChars]. now rewrite Hc.
    + now rewrite append_empty_r.
  - intros (port & Hport & ->). rewrite matchHere_lit.
    destruct port as [|c x]; [discriminate|].
    cbn [String.eqb negb andb allChars] in Hport.
    apply andb_true_iff in Hport as [Hc Hx].
    cbn [RegExp.matchHere RegExp.atomMatches]. rewrite Hc.
    assert (Hg : RegExp.greedy RegExp.Digit
                   (fun (atStart : bool) (s : string) =>
                      match s with
                      | "" => Some s
                      | String _ _ => None
                      end) false (x +:+ "") <> None).
    { apply greedy_complete; [intros b1 b2 s; now destruct s | exact Hx |].
      discriminate. }
    rewrite append_empty_r in Hg.
    destruct (RegExp.greedy _ _ false x); [reflexivity | now destruct Hg].
Qed.

End PatternFacts.

(** ** The server-side resolver: further properties *)

Module ServerMore.
Import Server Terms Inputs JSFacts StringFacts RegExpFacts ServerFacts.

(** X4: the final filter of [getCorsOrigins] never drops an entry: the list
    has eleven entries when the mode is ["development"] and ten otherwise,
    and its first entry is always the frontend URL. *)
Theorem getCorsOrigins_length_head (env : Env) :
  List.length (getCorsOrigins env)
    = (if nodeEnv env =? "development" then 11%nat else 10%nat)
  /\ head (getCorsOrigins env) = Some (OriginStr (getFrontendUrl env)).
Proof.
  rewrite getCorsOrigins_eq. unfold fixedOrigins.
  destruct (nodeEnv env =? "development"); split; reflexivity.
Qed.

(** X5: the wildcard ["*"] is in the list of [getCorsOrigins] exactly when
    the mode is ["development"] or the frontend URL itself is ["*"]. *)
Theorem getCorsOrigins_wildcard_iff (env : Env) :
  OriginStr "*" ∈ getCorsOrigins env <->
  nodeEnv env = "development" \/ getFrontendUrl env = "*".
Proof.
  rewrite getCorsOrigins_eq, list_elem_of_In. unfold fixedOrigins.
  destruct (String.eqb_spec (nodeEnv env) "development") as [He|Hne]; simpl.
  - split; [intros _; now left|]. intros _. do 10 right. now left.
  - split.
    + intros [H|H]; [injection H as H; now right|].
      repeat (destruct H as [H|H]; [discriminate H|]). now destruct H.
    + intros [H|H]; [now destruct Hne | left; now rewrite H].
Qed.

(** X6: the list of [getCorsOrigins] is not deduplicated: outside production
    and without [FRONTEND_URL], the origin [http://localhost:5173] is in it
    twice, as the frontend URL and as the first fixed origin. *)
Theorem getCorsOrigins_duplicate (env : Env) :
  JS.truthy (env !! "FRONTEND_URL") = false ->
  env !! "NODE_ENV" <> Some "production" ->
  getCorsOrigins env !! 0%nat = Some (OriginStr "http://localhost:5173")
  /\ getCorsOrigins env !! 1%nat = Some (OriginStr "http://localhost:5173")
  /\ ~ NoDup (getCorsOrigins env).
Proof.
  intros Hf Hmode.
  assert (Hu : getFrontendUrl env = "http://localhost:5173").
  { unfold getFrontendUrl. rewrite Hf.
    destruct (String.eqb_spec (nodeEnv env) "production") as [He|_]; [|reflexivity].
    apply nodeEnv_production in He. now destruct Hmode. }
  rewrite getCorsOrigins_eq, Hu. unfold fixedOrigins.
  split; [reflexivity|]. split; [reflexivity|].
  intros Hnd. apply NoDup_cons in Hnd as [Hnotin _].
  apply Hnotin. simpl. now left.
Qed.

Lemma getCorsOrigins_duplicate_witness :
  JS.truthy (testEnv !! "FRONTEND_URL") = false
  /\ testEnv !! "NODE_ENV" <> Some "production"
  /\ ~ NoDup (getCorsOrigins testEnv).
Proof.
  split; [reflexivity|]. split; [vm_compute; discriminate|].
  apply (getCorsOrigins_duplicate testEnv); [reflexivity | vm_compute; discriminate].
Defined.

(** X7: [getFrontendUrl] and [getBackendUrl] never return the empty string,
    whatever the environment holds. *)
Theorem server_urls_nonempty (env : Env) :
  getFrontendUrl env <> "" /\ getBackendUrl env <> "".
Proof.
  split; [apply getFrontendUrl_nonempty|].
  unfold getBackendUrl.
  destruct (nodeEnv env =? "production"); [|discriminate].
  destruct (JS.truthy (env !! "RENDER_EXTERNAL_URL")) eqn:Hr; [|discriminate].
  apply truthy_true in Hr as (s & -> & Hs). exact Hs.
Qed.

(** X8: in production [getBackendUrl] does not read the bind address: two
    environments that differ in [HOST] and [PORT] only give the same URL.
    Outside production it does not read the platform variables: two
    environments that differ in [RENDER_EXTERNAL_URL] and
    [RENDER_SERVICE_NAME] only give the same URL. *)
Theorem getBackendUrl_mode_inputs (env1 env2 : Env) :
  (env1 !! "NODE_ENV" = Some "production" ->
   (forall k : string, k <> "HOST" -> k <> "PORT" -> env1 !! k = env2 !! k) ->
   getBackendUrl env1 = getBackendUrl env2)
  /\ (env1 !! "NODE_ENV" <> Some "production" ->
      (forall k : string, k <> "RENDER_EXTERNAL_URL" ->
                          k <> "RENDER_SERVICE_NAME" -> env1 !! k = env2 !! k) ->
      getBackendUrl env1 = getBackendUrl env2).
Proof.
  split.
  - intros Hmode Hagree.
    assert (Hmode2 : env2 !! "NODE_ENV" = Some "production")
      by (rewrite <- (Hagree "NODE_ENV"); [exact Hmode | discriminate..]).
    apply nodeEnv_production in Hmode, Hmode2.
    unfold getBackendUrl. rewrite Hmode, Hmode2. simpl.
    rewrite (Hagree "RENDER_EXTERNAL_URL"), (Hagree "RENDER_SERVICE_NAME");
      [reflexivity | discriminate..].
  - intros Hmode Hagree.
    assert (Hmode2 : env2 !! "NODE_ENV" <> Some "production")
      by (rewrite <- (Hagree "NODE_ENV"); [exact Hmode | discriminate..]).
    unfold getBackendUrl.
    destruct (String.eqb_spec (nodeEnv env1) "production") as [He|_];
      [apply nodeEnv_production in He; now destruct Hmode|].
    destruct (String.eqb_spec (nodeEnv env2) "production") as [He|_];
      [apply nodeEnv_production in He; now destruct Hmode2|].
    rewrite (Hagree "HOST"), (Hagree "PORT"); [reflexivity | discriminate..].
Qed.

Lemma getBackendUrl_mode_inputs_witness :
  getBackendUrl prodEnv
    = getBackendUrl (<["HOST" := "0.0.0.0"]> (<["PORT" := "3001"]> prodEnv))
  /\ getBackendUrl bindEnv
     = getBackendUrl (<["RENDER_EXTERNAL_URL" := "https://feedback.onrender.com"]> bindEnv).
Proof.
  split.
  - apply (proj1 (getBackendUrl_mode_inputs prodEnv
             (<["HOST" := "0.0.0.0"]> (<["PORT" := "3001"]> prodEnv))));
      [reflexivity|].
    intros k Hh Hp. symmetry.
    rewrite lookup_insert_ne by congruence. apply lookup_insert_ne. congruence.
  - apply (proj2 (getBackendUrl_mode_inputs bindEnv
             (<["RENDER_EXTERNAL_URL" := "https://feedback.onrender.com"]> bindEnv)));
      [vm_compute; discriminate|].
    intros k Hh Hp. symmetry. apply lookup_insert_ne. congruence.
Defined.

(** X9: in production without [FRONTEND_URL], the frontend URL and the
    backend URL are the same string when exactly one of [RENDER] and
    [RENDER_EXTERNAL_URL] is set, and when neither of them nor
    [RENDER_SERVICE_NAME] is set. *)
Theorem production_frontend_is_backend (env : Env) :
  JS.truthy (env !! "FRONTEND_URL") = false ->
  env !! "NODE_ENV" = Some "production" ->
  JS.truthy (env !! "RENDER") = negb (JS.truthy (env !! "RENDER_EXTERNAL_URL"))
  \/ (JS.truthy (env !! "RENDER") = false
      /\ JS.truthy (env !! "RENDER_EXTERNAL_URL") = false
      /\ JS.truthy (env !! "RENDER_SERVICE_NAME") = false) ->
  getFrontendUrl env = getBackendUrl env.
Proof.
  intros Hf Hmode Hcase. apply nodeEnv_production in Hmode.
  unfold getFrontendUrl, getBackendUrl. rewrite Hf, Hmode. simpl.
  destruct Hcase as [Hx | (Hr & He & Hs)].
  - destruct (JS.truthy (env !! "RENDER_EXTERNAL_URL")); rewrite Hx; reflexivity.
  - rewrite Hr, He, (or_else_falsy _ _ Hs). reflexivity.
Qed.

Lemma production_frontend_is_backend_witness :
  getFrontendUrl renderEnv = getBackendUrl renderEnv
  /\ getFrontendUrl externalEnv = getBackendUrl externalEnv
  /\ getFrontendUrl prodEnv = getBackendUrl prodEnv.
Proof.
  split; [|split].
  - apply (production_frontend_is_backend renderEnv);
      [reflexivity | reflexivity | left; reflexivity].
  - apply (production_frontend_is_backend externalEnv);
      [reflexivity | reflexivity | left; reflexivity].
  - apply (production_frontend_is_backend prodEnv);
      [reflexivity | reflexivity | right; repeat split; reflexivity].
Defined.



(** X11: the startup log of the server has seven lines, and its line of
    origins reads [11 configured] when the mode is ["development"] and
    [10 configured] otherwise, whatever the other variables hold. *)
Theorem logConfiguration_origin_count (env : Env) :
  List.length (Server.logConfiguration env) = 7%nat
  /\ Server.logConfiguration env !! 5%nat
     = Some ("🔒 CORS Origins: "
               +:+ (if nodeEnv env =? "development" then "11" else "10")
               +:+ " configured").
Proof.
  split; [reflexivity|].
  unfold Server.logConfiguration. cbn [lookup list_lookup].
  rewrite getCorsOrigins_eq. unfold fixedOrigins.
  destruct (nodeEnv env =? "development"); reflexivity.
Qed.

End ServerMore.

(** ** The client-side resolver: further properties *)

Module ClientMore.
Import Server Client Terms Inputs JSFacts StringFacts RegExpFacts.

Lemma getApiBaseUrl_nonempty (b : Browser) : getApiBaseUrl b <> "".
Proof.
  unfold getApiBaseUrl.
  destruct (JS.truthy (VITE_API_BASE_URL (env b))) eqn:Ho.
  { apply truthy_true in Ho as (s & -> & Hs). exact Hs. }
  destruct (PROD (env b)); [|discriminate].
  destruct (JS.includes (locationHost b) "onrender.com"); [discriminate|].
  destruct (JS.includes (locationHost b) "railway.app"); [discriminate|].
  destruct (JS.includes (locationHost b) "vercel.app"); discriminate.
Qed.

(** The replacement of [getBackendBaseUrl], by cases on the end of the API
    base URL. *)
Lemma getBackendBaseUrl_cases (b : Browser) :
  (exists pre, getApiBaseUrl b = pre +:+ "/api" /\ getBackendBaseUrl b = pre)
  \/ ((forall pre, getApiBaseUrl b <> pre +:+ "/api")
      /\ getBackendBaseUrl b = getApiBaseUrl b).
Proof.
  unfold getBackendBaseUrl, RegExp.replace, RegExp.exec.
  destruct (JS.endsWith (getApiBaseUrl b) "/api") eqn:He.
  - apply endsWith_spec in He as [pre He]. left. exists pre.
    split; [exact He|]. rewrite He, execFrom_reApiSuffix_suffix.
    simpl. apply append_empty_r.
  - assert (Hno : forall pre, getApiBaseUrl b <> pre +:+ "/api").
    { intros pre Hp. assert (Ht : JS.endsWith (getApiBaseUrl b) "/api" = true)
        by (apply endsWith_spec; now exists pre).
      rewrite Ht in He. discriminate. }
    right. split; [exact Hno|]. now rewrite execFrom_reApiSuffix_none.
Qed.

(** Without an override the backend base URL is the API base URL without its
    last four characters. *)
Lemma getBackendBaseUrl_no_override (b : Browser) :
  JS.truthy (VITE_API_BASE_URL (env b)) = false ->
  getBackendBaseUrl b =
    if PROD (env b)
    then if hostIncludesPlatformSuffix (locationHost b)
         then "https://" +:+ locationHost b
         else ""
    else "http://localhost:" +:+ JS.or_else (VITE_BACKEND_PORT (env b)) "8080".
Proof.
  intros Ho.
  assert (Hstrip : forall pre, getApiBaseUrl b = pre +:+ "/api" ->
                               getBackendBaseUrl b = pre).
  { intros pre He. unfold getBackendBaseUrl, RegExp.replace, RegExp.exec.
    rewrite He, execFrom_reApiSuffix_suffix. simpl. apply append_empty_r. }
  apply Hstrip. unfold getApiBaseUrl, hostIncludesPlatformSuffix. rewrite Ho.
  cbn [existsb clientPlatformSuffixes].
  destruct (PROD (env b)); [|reflexivity].
  destruct (JS.includes (locationHost b) "onrender.com"); [reflexivity|].
  destruct (JS.includes (locationHost b) "railway.app"); [reflexivity|].
  destruct (JS.includes (locationHost b) "vercel.app"); reflexivity.
Qed.

(** Without an override the API base URL ends with [/api], which is what
    the backend base URL lacks. *)
Lemma getBackendBaseUrl_append_api (b : Browser) :
  JS.truthy (VITE_API_BASE_URL (env b)) = false ->
  getBackendBaseUrl b +:+ "/api" = getApiBaseUrl b.
Proof.
  intros Ho. rewrite (getBackendBaseUrl_no_override b Ho).
  unfold getApiBaseUrl, hostIncludesPlatformSuffix. rewrite Ho.
  cbn [existsb clientPlatformSuffixes].
  destruct (PROD (env b)); [|reflexivity].
  destruct (JS.includes (locationHost b) "onrender.com"); [reflexivity|].
  destruct (JS.includes (locationHost b) "railway.app"); [reflexivity|].
  destruct (JS.includes (locationHost b) "vercel.app"); reflexivity.
Qed.

(** X12: [getApiBaseUrl] never returns the empty string, and so neither do
    [getApiUrl], for any endpoint, and [getSseUrl]. *)
Theorem client_urls_nonempty (b : Browser) :
  getApiBaseUrl b <> ""
  /\ (forall endpoint, getApiUrl b endpoint <> "")
  /\ getSseUrl b <> "".
Proof.
  pose proof (getApiBaseUrl_nonempty b) as Hne.
  split; [exact Hne|]. split.
  - intros endpoint. unfold getApiUrl. now apply append_nonempty_l.
  - unfold getSseUrl, getApiUrl. now apply append_nonempty_l.
Qed.

(** X13: [getBackendBaseUrl] returns the empty string exactly when the API
    base URL is the relative path [/api]: in a production build without
    override, on a host that holds none of the three platform names. *)
Theorem getBackendBaseUrl_empty_iff (b : Browser) :
  (getBackendBaseUrl b = "" <-> getApiBaseUrl b = "/api")
  /\ (JS.truthy (VITE_API_BASE_URL (env b)) = false ->
      (getBackendBaseUrl b = "" <->
         PROD (env b) = true
         /\ hostIncludesPlatformSuffix (locationHost b) = false)).
Proof.
  split.
  - split.
    + intros He. destruct (getBackendBaseUrl_cases b) as [(pre & Ha & Hb) | (_ & Hb)].
      * rewrite He in Hb. subst pre. exact Ha.
      * rewrite He in Hb. symmetry in Hb. now destruct (getApiBaseUrl_nonempty b).
    + intros Ha. unfold getBackendBaseUrl. now rewrite Ha.
  - intros Ho. rewrite (getBackendBaseUrl_no_override b Ho).
    destruct (PROD (env b)).
    + destruct (hostIncludesPlatformSuffix (locationHost b)).
      * split; [discriminate | intros [_ H]; discriminate H].
      * split; [now intros _ | reflexivity].
    + split; [discriminate | intros [H _]; discriminate H].
Qed.

Lemma getBackendBaseUrl_empty_iff_witness :
  getBackendBaseUrl (prodBrowser "app.example.org") = "".
Proof.
  apply (proj2 (getBackendBaseUrl_empty_iff (prodBrowser "app.example.org"))
               eq_refl).
  split; reflexivity.
Defined.

(** X14: without an override, [getBackendBaseUrl] followed by [/api] is the
    API base URL again; the backend base URL is [https://HOST] on a platform
    host in production and [http://localhost:PORT] in development. *)
Theorem getBackendBaseUrl_round_trip (b : Browser) :
  JS.truthy (VITE_API_BASE_URL (env b)) = false ->
  getBackendBaseUrl b +:+ "/api" = getApiBaseUrl b
  /\ (PROD (env b) = true ->
      hostIncludesPlatformSuffix (locationHost b) = true ->
      getBackendBaseUrl b = "https://" +:+ locationHost b)
  /\ (PROD (env b) = false ->
      getBackendBaseUrl b
        = "http://localhost:" +:+ JS.or_else (VITE_BACKEND_PORT (env b)) "8080").
Proof.
  intros Ho. pose proof (getBackendBaseUrl_no_override b Ho) as Hb.
  split; [|split].
  - now apply getBackendBaseUrl_append_api.
  - intros Hp Hi. now rewrite Hb, Hp, Hi.
  - intros Hp. now rewrite Hb, Hp.
Qed.

Lemma getBackendBaseUrl_round_trip_witness :
  getBackendBaseUrl (devBrowser (Some "3001")) +:+ "/api"
    = getApiBaseUrl (devBrowser (Some "3001"))
  /\ getBackendBaseUrl (prodBrowser "x.vercel.app") = "https://x.vercel.app".
Proof.
  split.
  - apply (proj1 (getBackendBaseUrl_round_trip (devBrowser (Some "3001")) eq_refl)).
  - apply (proj1 (proj2 (getBackendBaseUrl_round_trip (prodBrowser "x.vercel.app")
                           eq_refl))); reflexivity.
Defined.

(** X15: [getSseUrl] is the API base URL followed by [/events]; without an
    override it is the backend base URL followed by [/api/events]. *)
Theorem getSseUrl_paths (b : Browser) :
  getSseUrl b = getApiBaseUrl b +:+ "/events"
  /\ (JS.truthy (VITE_API_BASE_URL (env b)) = false ->
      getSseUrl b = getBackendBaseUrl b +:+ "/api/events").
Proof.
  split; [reflexivity|].
  intros Ho. unfold getSseUrl, getApiUrl.
  rewrite <- (getBackendBaseUrl_append_api b Ho), append_assoc. reflexivity.
Qed.

Lemma getSseUrl_paths_witness :
  getSseUrl (prodBrowser "app.example.org")
  = getBackendBaseUrl (prodBrowser "app.example.org") +:+ "/api/events".
Proof.
  apply (proj2 (getSseUrl_paths (prodBrowser "app.example.org"))). reflexivity.
Defined.

(** X16: two endpoints that both start with a slash and differ give two
    different URLs: [getApiUrl] merges an endpoint only with its own
    spelling without the leading slash. *)
Theorem getApiUrl_distinct (b : Browser) (e1 e2 : string) :
  JS.startsWith e1 "/" = true ->
  JS.startsWith e2 "/" = true ->
  e1 <> e2 ->
  getApiUrl b e1 <> getApiUrl b e2.
Proof.
  intros H1 H2 Hne. unfold getApiUrl. rewrite H1, H2.
  intros He. apply Hne. exact (String.app_inj _ _ _ He).
Qed.

Lemma getApiUrl_distinct_witness :
  getApiUrl (devBrowser None) "/feedback" <> getApiUrl (devBrowser None) "/whatsapp".
Proof.
  apply (getApiUrl_distinct (devBrowser None) "/feedback" "/whatsapp");
    [reflexivity | reflexivity | discriminate].
Defined.

(** X17: what [getApiBaseUrl] reads: with a non-empty override nothing
    else; without one, the production flag, then the page host in production
    only and the port override in development only; never [DEV] or [MODE]. *)
Theorem getApiBaseUrl_inputs (b1 b2 : Browser) :
  VITE_API_BASE_URL (env b1) = VITE_API_BASE_URL (env b2) ->
  (JS.truthy (VITE_API_BASE_URL (env b1)) = false ->
   PROD (env b1) = PROD (env b2)
   /\ (PROD (env b1) = true -> locationHost b1 = locationHost b2)
   /\ (PROD (env b1) = false ->
       VITE_BACKEND_PORT (env b1) = VITE_BACKEND_PORT (env b2))) ->
  getApiBaseUrl b1 = getApiBaseUrl b2.
Proof.
  intros Ho Hrest. unfold getApiBaseUrl. rewrite <- Ho.
  destruct (JS.truthy (VITE_API_BASE_URL (env b1))); [reflexivity|].
  destruct (Hrest eq_refl) as (Hp & Hhost & Hport). rewrite <- Hp.
  destruct (PROD (env b1)).
  - now rewrite <- (Hhost eq_refl).
  - now rewrite <- (Hport eq_refl).
Qed.

Lemma getApiBaseUrl_inputs_witness :
  getApiBaseUrl (prodBrowser "x.railway.app")
  = getApiBaseUrl
      {| env := {| VITE_API_BASE_URL := None; VITE_BACKEND_PORT := Some "3001";
                   PROD := true; DEV := true; MODE := "staging" |};
         locationHost := "x.railway.app" |}.
Proof.
  apply getApiBaseUrl_inputs; [reflexivity|].
  intros _. split; [reflexivity|].
  split; [reflexivity | intros H; discriminate H].
Defined.



(** X19: the client prints nothing unless [DEV] is set.  In a development
    build without override it prints seven lines, whose URLs are
    [http://localhost:PORT/api], [http://localhost:PORT] and
    [http://localhost:PORT/api/events], with [PORT] the port override or
    [8080]. *)
Theorem logConfiguration_development (b : Browser) :
  (isDevelopment b = false -> Client.logConfiguration b = [])
  /\ (isDevelopment b = true ->
      JS.truthy (VITE_API_BASE_URL (env b)) = false ->
      PROD (env b) = false ->
      Client.logConfiguration b =
        [ JS.newline +:+ "🔧 Frontend URL Configuration:";
          logRule;
          "📍 Environment: " +:+ MODE (env b);
          "🌐 API Base URL: http://localhost:"
             +:+ JS.or_else (VITE_BACKEND_PORT (env b)) "8080" +:+ "/api";
          "🔌 Backend Base URL: http://localhost:"
             +:+ JS.or_else (VITE_BACKEND_PORT (env b)) "8080";
          "📡 SSE URL: http://localhost:"
             +:+ JS.or_else (VITE_BACKEND_PORT (env b)) "8080" +:+ "/api/events";
          logRule +:+ JS.newline ]).
Proof.
  split.
  - intros Hd. unfold Client.logConfiguration. now rewrite Hd.
  - intros Hd Ho Hp. unfold Client.logConfiguration. rewrite Hd.
    rewrite (getBackendBaseUrl_no_override b Ho), Hp.
    unfold getSseUrl, getApiUrl, getApiBaseUrl. rewrite Ho, Hp.
    cbn [JS.startsWith String.prefix].
    rewrite !append_assoc.
    reflexivity.
Qed.

Lemma logConfiguration_development_witness :
  Client.logConfiguration (prodBrowser "x.onrender.com") = []
  /\ Client.logConfiguration (devBrowser (Some "3001")) !! 5%nat
     = Some "📡 SSE URL: http://localhost:3001/api/events".
Proof.
  split.
  - apply (proj1 (logConfiguration_development (prodBrowser "x.onrender.com"))).
    reflexivity.
  - rewrite (proj2 (logConfiguration_development (devBrowser (Some "3001")))
               eq_refl eq_refl eq_refl).
    reflexivity.
Defined.

Lemma getApiBaseUrl_platform_host_witness :
  hostEndsWithPlatformSuffix "feedback.railway.app" = true
  /\ getApiBaseUrl (prodBrowser "feedback.railway.app")
     = "https://feedback.railway.app/api".
Proof.
  split; [reflexivity|].
  apply (ClientFacts.getApiBaseUrl_platform_host (prodBrowser "feedback.railway.app"));
    reflexivity.
Defined.

End ClientMore.
